(** * discovery.ec2: arguments, defaults, validation and conversion

    A shallow embedding of [internal/component/discovery/aws/ec2.go].

    Go values are modelled as follows.
    - [string] is [string]; [int] and [time.Duration] (a count of
      nanoseconds) are [Z].  No arithmetic is performed on them apart from
      the constant [60 * time.Second].
    - [alloytypes.Secret], [promcfg.Secret] and [model.Duration] are named
      types over [string] / [int64]; the conversions between them keep the
      underlying value.
    - [error] is a two-constructor type that keeps apart an error built by
      [errors.New] in this file and an error handed back by the AWS SDK.
    - [Filters] is a slice of pointers.  The decoder allocates one
      [EC2Filter] per [filter] block, so the slice is modelled as the list
      of the records pointed to.
    - [config.HTTPClientConfig], its [Convert] method and
      [config.DefaultHTTPClientConfig] belong to another package; they are
      parameters of the model.
    - The AWS SDK ([awsConfig.LoadDefaultConfig], [imds.NewFromConfig],
      [Client.GetRegion]) is a record of answers, and every call that
      reaches it is logged.  The theorems quantify over every such record,
      which includes answers the SDK does not give ([GetRegion] reports an
      error rather than an empty region). *)

From Stdlib Require Import String List ZArith Lia Bool.
From Stdlib Require Import Permutation.
Import ListNotations.

Local Open Scope string_scope.
Local Open Scope Z_scope.

(** ** Go's [error] *)

Inductive error : Type :=
| errors_New (text : string)   (* built by errors.New in this package *)
| sdk_error (text : string).   (* returned by a call into the AWS SDK *)

(** What the specification calls a ConfigurationError: an error that
    [Validate] builds itself, as opposed to one it passes on. *)
Definition is_errors_New (e : error) : bool :=
  match e with
  | errors_New _ => true
  | sdk_error _ => false
  end.

(** A Go call returning [(value, err)]. *)
Inductive result (A : Type) : Type :=
| Ok (a : A)
| Err (e : error).
Arguments Ok {A} a.
Arguments Err {A} e.

(** ** package time *)

Definition time_Second : Z := 1000000000.

(** ** package promaws (the target of [Convert]) *)

Module promaws.

Record EC2Filter : Type := mkEC2Filter {
  Name : string;
  Values : list string
}.

Record EC2SDConfig {P : Type} : Type := mkEC2SDConfig {
  Endpoint : string;
  Region : string;
  AccessKey : string;
  SecretKey : string;
  Profile : string;
  RoleARN : string;
  RefreshInterval : Z;
  Port : Z;
  Filters : list EC2Filter;
  HTTPClientConfig : P
}.
Arguments EC2SDConfig : clear implicits.
Arguments mkEC2SDConfig {P}.

(** [cfg.Filters = append(cfg.Filters, f)] *)
Definition append_Filters {P} (cfg : EC2SDConfig P) (f : EC2Filter)
  : EC2SDConfig P :=
  mkEC2SDConfig (Endpoint cfg) (Region cfg) (AccessKey cfg) (SecretKey cfg)
                (Profile cfg) (RoleARN cfg) (RefreshInterval cfg) (Port cfg)
                (Filters cfg ++ [f]) (HTTPClientConfig cfg).

End promaws.

(** ** package imds and awsConfig: the part of the SDK that [Validate] uses *)

Module imds.

Record GetRegionOutput : Type := mkGetRegionOutput {
  Region : string
}.

End imds.

Inductive sdk_call : Type :=
| call_LoadDefaultConfig
| call_GetRegion.

Record SDK {Config Client : Type} : Type := mkSDK {
  awsConfig_LoadDefaultConfig : result Config;
  imds_NewFromConfig : Config -> Client;
  imds_GetRegion : Client -> result imds.GetRegionOutput
}.
Arguments SDK : clear implicits.
Arguments mkSDK {Config Client}.

(** ** EC2Filter and EC2Arguments *)

Record EC2Filter : Type := mkEC2Filter {
  Name : string;
  Values : list string
}.

Record EC2Arguments {H : Type} : Type := mkEC2Arguments {
  Endpoint : string;
  Region : string;
  AccessKey : string;
  SecretKey : string;
  Profile : string;
  RoleARN : string;
  RefreshInterval : Z;
  Port : Z;
  Filters : list EC2Filter;
  HTTPClientConfig : H
}.
Arguments EC2Arguments : clear implicits.
Arguments mkEC2Arguments {H}.

(** [args.Region = r] *)
Definition set_Region {H} (r : string) (args : EC2Arguments H)
  : EC2Arguments H :=
  mkEC2Arguments (Endpoint args) r (AccessKey args) (SecretKey args)
                 (Profile args) (RoleARN args) (RefreshInterval args)
                 (Port args) (Filters args) (HTTPClientConfig args).

(** ** Convert *)

(** The loop [for _, f := range args.Filters { cfg.Filters = append(...) }]. *)
Fixpoint Convert_range {P} (fs : list EC2Filter) (cfg : promaws.EC2SDConfig P)
  : promaws.EC2SDConfig P :=
  match fs with
  | [] => cfg
  | f :: rest =>
      Convert_range rest
        (promaws.append_Filters cfg
           (promaws.mkEC2Filter (Name f) (Values f)))
  end.

Definition Convert {H P} (HTTPClientConfig_Convert : H -> P)
    (args : EC2Arguments H) : promaws.EC2SDConfig P :=
  let cfg :=
    promaws.mkEC2SDConfig
      (Endpoint args) (Region args) (AccessKey args) (SecretKey args)
      (Profile args) (RoleARN args) (RefreshInterval args) (Port args)
      []   (* Filters is not named in the literal: nil *)
      (HTTPClientConfig_Convert (HTTPClientConfig args)) in
  Convert_range (Filters args) cfg.

(** ** DefaultEC2SDConfig and SetToDefault *)

(** Fields the composite literal does not name hold their zero value. *)
Definition DefaultEC2SDConfig {H} (DefaultHTTPClientConfig : H)
  : EC2Arguments H :=
  mkEC2Arguments "" "" "" "" "" ""
                 (60 * time_Second)
                 80
                 []
                 DefaultHTTPClientConfig.

(** [*args = DefaultEC2SDConfig]: the result is the new value of [*args]. *)
Definition SetToDefault {H} (DefaultHTTPClientConfig : H)
    (args : EC2Arguments H) : EC2Arguments H :=
  DefaultEC2SDConfig DefaultHTTPClientConfig.

(** ** Validate *)

(** What a call of [Validate] can change: the receiver [*args], and the log
    of calls made into the SDK. *)
Record state {H : Type} : Type := mkstate {
  st_args : EC2Arguments H;
  st_calls : list sdk_call
}.
Arguments state : clear implicits.
Arguments mkstate {H}.

(** A statement either falls through to the next one or leaves the function
    with the [error] it returns ([None] is [nil]). *)
Inductive flow (A : Type) : Type :=
| Next (a : A)
| Return (err : option error).
Arguments Next {A} a.
Arguments Return {A} err.

Definition M (H A : Type) : Type := state H -> flow A * state H.

Definition ret {H A} (a : A) : M H A := fun s => (Next a, s).

Definition bind {H A B} (m : M H A) (k : A -> M H B) : M H B :=
  fun s =>
    match m s with
    | (Next a, s') => k a s'
    | (Return e, s') => (Return e, s')
    end.

Definition return_ {H A} (e : option error) : M H A :=
  fun s => (Return e, s).

Definition get_args {H} : M H (EC2Arguments H) :=
  fun s => (Next (st_args s), s).

Definition assign_Region {H} (r : string) : M H unit :=
  fun s => (Next tt, mkstate (set_Region r (st_args s)) (st_calls s)).

Definition log_call {H} (c : sdk_call) : M H unit :=
  fun s => (Next tt, mkstate (st_args s) (st_calls s ++ [c])).

Notation "x <- m ;; k" := (bind m (fun x => k))
  (at level 61, m at next level, right associativity).
Notation "m ;;; k" := (bind m (fun _ => k))
  (at level 61, right associativity).

(** The loop over [args.Filters]: leaves the function at the first filter
    whose [Values] has length 0. *)
Fixpoint Validate_range {H} (fs : list EC2Filter) : M H unit :=
  match fs with
  | [] => ret tt
  | f :: rest =>
      if (length (Values f) =? 0)%nat
      then return_ (Some (errors_New
                     "EC2 SD configuration filter values cannot be empty"))
      else Validate_range rest
  end.

Definition Validate_body {H Config Client} (sdk : SDK Config Client)
  : M H Empty_set :=
  args <- get_args ;;
  (if (Region args =? "")%string then
     log_call call_LoadDefaultConfig ;;;
     match awsConfig_LoadDefaultConfig sdk with
     | Err err => return_ (Some err)
     | Ok cfg =>
         let client := imds_NewFromConfig sdk cfg in
         log_call call_GetRegion ;;;
         match imds_GetRegion sdk client with
         | Err _ =>
             return_ (Some (errors_New
                        "EC2 SD configuration requires a region"))
         | Ok region => assign_Region (imds.Region region)
         end
     end
   else ret tt) ;;;
  args <- get_args ;;
  Validate_range (Filters args) ;;;
  return_ None.

(** Calling [args.Validate()] with no SDK call logged yet: the returned
    [error], and the state the call leaves behind. *)
Definition Validate {H Config Client} (sdk : SDK Config Client)
    (args : EC2Arguments H) : option error * state H :=
  match Validate_body sdk (mkstate args []) with
  | (Return e, s) => (e, s)
  | (Next absurd, _) => match absurd with end
  end.

Definition Validate_error {H Config Client} (sdk : SDK Config Client)
    (args : EC2Arguments H) : option error :=
  fst (Validate sdk args).

Definition Validate_args {H Config Client} (sdk : SDK Config Client)
    (args : EC2Arguments H) : EC2Arguments H :=
  st_args (snd (Validate sdk args)).

Definition Validate_calls {H Config Client} (sdk : SDK Config Client)
    (args : EC2Arguments H) : list sdk_call :=
  st_calls (snd (Validate sdk args)).

(** ** Vocabulary of the statements *)

Definition filter_values_error : error :=
  errors_New "EC2 SD configuration filter values cannot be empty".

Definition region_required_error : error :=
  errors_New "EC2 SD configuration requires a region".

(** The test made by the loop of [Validate]. *)
Definition has_no_Values (f : EC2Filter) : bool :=
  (length (Values f) =? 0)%nat.

(** The value returned once the filters are reached. *)
Definition filters_verdict (fs : list EC2Filter) : option error :=
  if existsb has_no_Values fs then Some filter_values_error else None.

(** What [Convert] appends for the filter [f]. *)
Definition Convert_filter (f : EC2Filter) : promaws.EC2Filter :=
  promaws.mkEC2Filter (Name f) (Values f).

(** ** Sample inputs *)

Definition sdk_us_east_1 : SDK unit unit :=
  mkSDK (Ok tt) (fun cfg => cfg)
        (fun _ => Ok (imds.mkGetRegionOutput "us-east-1")).

Definition sdk_no_credentials : SDK unit unit :=
  mkSDK (Err (sdk_error "failed to load shared config file"))
        (fun cfg => cfg)
        (fun _ => Ok (imds.mkGetRegionOutput "us-east-1")).

Definition sdk_no_metadata : SDK unit unit :=
  mkSDK (Ok tt) (fun cfg => cfg)
        (fun _ => Err (sdk_error "context deadline exceeded")).

Definition tag_filter : EC2Filter :=
  mkEC2Filter "tag:Name" ["web"; "db"].

Definition empty_filter : EC2Filter :=
  mkEC2Filter "instance-state-name" [].

Definition unnamed_filter : EC2Filter :=
  mkEC2Filter "" ["running"].

Definition sample_args (region : string) (port : Z) (fs : list EC2Filter)
  : EC2Arguments unit :=
  mkEC2Arguments "http://localhost:4566" region "AKIA" "s3cr3t" "dev"
                 "arn:aws:iam::1:role/r" (10 * time_Second) port fs tt.

(** * Properties *)

(** ** The filter loop *)

Section FilterLoop.

Context {H : Type}.

(** The loop never touches the state; it leaves the function exactly when
    some filter has no values. *)
Lemma Validate_range_run (fs : list EC2Filter) (s : state H) :
  Validate_range fs s =
  (if existsb has_no_Values fs
   then Return (Some filter_values_error)
   else Next tt, s).
Proof.
  induction fs as [| f rest IH]; cbn [Validate_range existsb].
  - reflexivity.
  - unfold has_no_Values at 1.
    destruct (length (Values f) =? 0)%nat; cbn [orb].
    + reflexivity.
    + exact IH.
Qed.

Lemma has_no_Values_true (f : EC2Filter) :
  has_no_Values f = true <-> Values f = [].
Proof.
  unfold has_no_Values. rewrite Nat.eqb_eq.
  split.
  - apply length_zero_iff_nil.
  - intros ->. reflexivity.
Qed.

Lemma existsb_has_no_Values (fs : list EC2Filter) :
  existsb has_no_Values fs = true <->
  exists f, In f fs /\ Values f = [].
Proof.
  rewrite existsb_exists.
  split; intros [f [Hin Hf]]; exists f; split; trivial;
    now apply has_no_Values_true.
Qed.

Lemma existsb_has_no_Values_false (fs : list EC2Filter) :
  existsb has_no_Values fs = false <->
  Forall (fun f => Values f <> []) fs.
Proof.
  rewrite Forall_forall. split.
  - intros Hex f Hin Hnil.
    assert (Ht : existsb has_no_Values fs = true)
      by (apply existsb_has_no_Values; eauto).
    congruence.
  - intros Hall.
    destruct (existsb has_no_Values fs) eqn:E; trivial.
    apply existsb_has_no_Values in E as [f [Hin Hnil]].
    now elim (Hall f Hin).
Qed.

End FilterLoop.

(** ** The four ways through Validate *)

Section ValidatePaths.

Context {H Config Client : Type}.
Variable sdk : SDK Config Client.
Variable args : EC2Arguments H.

Lemma Validate_region_set :
  Region args <> "" ->
  Validate sdk args = (filters_verdict (Filters args), mkstate args []).
Proof.
  intros Hset. apply String.eqb_neq in Hset.
  unfold Validate, Validate_body, bind, get_args, filters_verdict.
  cbn [st_args]. rewrite Hset. cbn [ret st_args].
  rewrite Validate_range_run.
  destruct (existsb has_no_Values (Filters args)); reflexivity.
Qed.

Lemma Validate_load_fails (e : error) :
  Region args = "" ->
  awsConfig_LoadDefaultConfig sdk = Err e ->
  Validate sdk args = (Some e, mkstate args [call_LoadDefaultConfig]).
Proof.
  intros Hunset Hload. apply String.eqb_eq in Hunset.
  unfold Validate, Validate_body, bind, get_args.
  cbn [st_args]. rewrite Hunset, Hload. reflexivity.
Qed.

Lemma Validate_GetRegion_fails (cfg : Config) (e : error) :
  Region args = "" ->
  awsConfig_LoadDefaultConfig sdk = Ok cfg ->
  imds_GetRegion sdk (imds_NewFromConfig sdk cfg) = Err e ->
  Validate sdk args =
  (Some region_required_error,
   mkstate args [call_LoadDefaultConfig; call_GetRegion]).
Proof.
  intros Hunset Hload Hget. apply String.eqb_eq in Hunset.
  unfold Validate, Validate_body, bind, get_args.
  cbn [st_args]. rewrite Hunset, Hload.
  cbn [log_call st_args st_calls app]. rewrite Hget. reflexivity.
Qed.

Lemma Validate_GetRegion_succeeds (cfg : Config)
    (out : imds.GetRegionOutput) :
  Region args = "" ->
  awsConfig_LoadDefaultConfig sdk = Ok cfg ->
  imds_GetRegion sdk (imds_NewFromConfig sdk cfg) = Ok out ->
  Validate sdk args =
  (filters_verdict (Filters args),
   mkstate (set_Region (imds.Region out) args)
           [call_LoadDefaultConfig; call_GetRegion]).
Proof.
  intros Hunset Hload Hget. apply String.eqb_eq in Hunset.
  unfold Validate, Validate_body, bind, get_args, filters_verdict.
  cbn [st_args]. rewrite Hunset, Hload.
  cbn [log_call st_args st_calls app]. rewrite Hget.
  cbn [assign_Region st_args st_calls set_Region Filters].
  rewrite Validate_range_run.
  destruct (existsb has_no_Values (Filters args)); reflexivity.
Qed.

(** Every call of [Validate] takes one of the four paths. *)
Lemma Validate_paths :
  (Region args <> "" /\
   Validate sdk args = (filters_verdict (Filters args), mkstate args []))
  \/
  (Region args = "" /\
   exists e,
     awsConfig_LoadDefaultConfig sdk = Err e /\
     Validate sdk args = (Some e, mkstate args [call_LoadDefaultConfig]))
  \/
  (Region args = "" /\
   exists cfg e,
     awsConfig_LoadDefaultConfig sdk = Ok cfg /\
     imds_GetRegion sdk (imds_NewFromConfig sdk cfg) = Err e /\
     Validate sdk args =
     (Some region_required_error,
      mkstate args [call_LoadDefaultConfig; call_GetRegion]))
  \/
  (Region args = "" /\
   exists cfg out,
     awsConfig_LoadDefaultConfig sdk = Ok cfg /\
     imds_GetRegion sdk (imds_NewFromConfig sdk cfg) = Ok out /\
     Validate sdk args =
     (filters_verdict (Filters args),
      mkstate (set_Region (imds.Region out) args)
              [call_LoadDefaultConfig; call_GetRegion])).
Proof.
  destruct (string_dec (Region args) "") as [Hunset | Hset].
  - right.
    destruct (awsConfig_LoadDefaultConfig sdk) as [cfg | e] eqn:Hload.
    + right.
      destruct (imds_GetRegion sdk (imds_NewFromConfig sdk cfg))
        as [out | e] eqn:Hget.
      * right. split; trivial. exists cfg, out.
        repeat split; trivial.
        now apply Validate_GetRegion_succeeds with cfg.
      * left. split; trivial. exists cfg, e.
        repeat split; trivial.
        now apply Validate_GetRegion_fails with cfg e.
    + left. split; trivial. exists e.
      split; trivial. now apply Validate_load_fails.
  - left. split; trivial. now apply Validate_region_set.
Qed.

End ValidatePaths.

(** ** SetToDefault *)

Section Defaults.

Context {H : Type}.
Variable DefaultHTTPClientConfig : H.

(** C3, as amended.  [SetToDefault] overwrites the whole configuration with
    [DefaultEC2SDConfig]: the port becomes 80, the refresh interval 60
    seconds (60 000 000 000 ns), the HTTP client block its default, and
    every other field its zero value, whatever the fields held before. *)
Theorem SetToDefault_overwrites (args : EC2Arguments H) :
  let args' := SetToDefault DefaultHTTPClientConfig args in
  args' = DefaultEC2SDConfig DefaultHTTPClientConfig /\
  Port args' = 80 /\
  RefreshInterval args' = 60 * time_Second /\
  RefreshInterval args' = 60000000000 /\
  HTTPClientConfig args' = DefaultHTTPClientConfig /\
  Endpoint args' = "" /\ Region args' = "" /\ AccessKey args' = "" /\
  SecretKey args' = "" /\ Profile args' = "" /\ RoleARN args' = "" /\
  Filters args' = [].
Proof.
  cbv zeta. unfold SetToDefault, DefaultEC2SDConfig; cbn.
  repeat split; reflexivity.
Qed.

(** C7.  [SetToDefault] is idempotent: applying it twice gives the same
    configuration as applying it once. *)
Theorem SetToDefault_idempotent (args : EC2Arguments H) :
  SetToDefault DefaultHTTPClientConfig
    (SetToDefault DefaultHTTPClientConfig args) =
  SetToDefault DefaultHTTPClientConfig args.
Proof.
  unfold SetToDefault. reflexivity.
Qed.

End Defaults.

(** C3, refuted as stated.  A configuration whose port (8080) and region
    are set does not keep them through [SetToDefault]. *)
Lemma SetToDefault_drops_set_fields :
  let args := sample_args "eu-west-1" 8080 [tag_filter] in
  let args' := SetToDefault tt args in
  (Port args <> 0 /\ Port args' <> Port args) /\
  (Region args <> "" /\ Region args' <> Region args).
Proof.
  cbn. repeat split; discriminate.
Qed.

(** ** Convert *)

Section Conversion.

Context {H P : Type}.
Variable HTTPClientConfig_Convert : H -> P.

(** The loop appends the converted filters, in order, and touches no other
    field of [cfg]. *)
Lemma Convert_range_run (fs : list EC2Filter) (cfg : promaws.EC2SDConfig P) :
  Convert_range fs cfg =
  promaws.mkEC2SDConfig
    (promaws.Endpoint cfg) (promaws.Region cfg) (promaws.AccessKey cfg)
    (promaws.SecretKey cfg) (promaws.Profile cfg) (promaws.RoleARN cfg)
    (promaws.RefreshInterval cfg) (promaws.Port cfg)
    (promaws.Filters cfg ++ map Convert_filter fs)
    (promaws.HTTPClientConfig cfg).
Proof.
  revert cfg.
  induction fs as [| f rest IH]; intros cfg; cbn [Convert_range map].
  - rewrite app_nil_r. now destruct cfg.
  - rewrite IH. unfold promaws.append_Filters; cbn.
    now rewrite <- app_assoc.
Qed.

Lemma Convert_Filters (args : EC2Arguments H) :
  promaws.Filters (Convert HTTPClientConfig_Convert args) =
  map Convert_filter (Filters args).
Proof.
  unfold Convert. rewrite Convert_range_run. reflexivity.
Qed.

(** C8.  [Convert] is a total function of the configuration alone.  The
    request it returns carries the endpoint, region, access key, secret key,
    profile, role ARN, refresh interval and port of its input; its filter
    list is as long as the input's, and filter [i] has the name and the
    values of input filter [i].  No input is refused: a filter with no
    name or no values is converted like any other. *)
Theorem Convert_copies (args : EC2Arguments H) :
  let cfg := Convert HTTPClientConfig_Convert args in
  promaws.Endpoint cfg = Endpoint args /\
  promaws.Region cfg = Region args /\
  promaws.AccessKey cfg = AccessKey args /\
  promaws.SecretKey cfg = SecretKey args /\
  promaws.Profile cfg = Profile args /\
  promaws.RoleARN cfg = RoleARN args /\
  promaws.RefreshInterval cfg = RefreshInterval args /\
  promaws.Port cfg = Port args /\
  promaws.HTTPClientConfig cfg =
    HTTPClientConfig_Convert (HTTPClientConfig args) /\
  length (promaws.Filters cfg) = length (Filters args) /\
  forall i : nat,
    option_map promaws.Name (nth_error (promaws.Filters cfg) i) =
      option_map Name (nth_error (Filters args) i) /\
    option_map promaws.Values (nth_error (promaws.Filters cfg) i) =
      option_map Values (nth_error (Filters args) i).
Proof.
  cbv zeta.
  rewrite Convert_Filters.
  unfold Convert. rewrite Convert_range_run. cbn.
  repeat (split; [reflexivity |]).
  split.
  - apply length_map.
  - intros i. rewrite nth_error_map.
    destruct (nth_error (Filters args) i); split; reflexivity.
Qed.

End Conversion.

(** ** Validate *)

Section Validation.

Context {H Config Client : Type}.
Variable sdk : SDK Config Client.

Ltac on_each_path args :=
  destruct (Validate_paths sdk args)
    as [[Hset Hrun]
       | [[Hunset [e [Hload Hrun]]]
       | [[Hunset [cfg [e [Hload [Hget Hrun]]]]]
       | [Hunset [cfg [out [Hload [Hget Hrun]]]]]]]];
  unfold Validate_error, Validate_args, Validate_calls;
  rewrite Hrun; cbn [fst snd st_args st_calls].

(** C1, as amended.  A configuration with a filter that has no values never
    passes [Validate].  When the region is set, the error is the one about
    empty filter values and the SDK is not called.  When the region is unset
    the probe is attempted before the filters are looked at:
    [LoadDefaultConfig] is called first, and alone when it fails; when it
    succeeds [GetRegion] is called too, and the error is one that [Validate]
    builds itself: the region-required error when [GetRegion] fails, the
    empty-filter-values error when it succeeds. *)
Theorem Validate_rejects_empty_values (args : EC2Arguments H) :
  (exists f, In f (Filters args) /\ Values f = []) ->
  Validate_error sdk args <> None /\
  (Region args <> "" ->
     Validate_error sdk args = Some filter_values_error /\
     Validate_calls sdk args = []) /\
  (Region args = "" ->
     hd_error (Validate_calls sdk args) = Some call_LoadDefaultConfig /\
     (forall e, awsConfig_LoadDefaultConfig sdk = Err e ->
        Validate_calls sdk args = [call_LoadDefaultConfig]) /\
     (forall cfg, awsConfig_LoadDefaultConfig sdk = Ok cfg ->
        Validate_calls sdk args = [call_LoadDefaultConfig; call_GetRegion] /\
        (exists e, Validate_error sdk args = Some e /\
                   is_errors_New e = true) /\
        (forall e,
           imds_GetRegion sdk (imds_NewFromConfig sdk cfg) = Err e ->
           Validate_error sdk args = Some region_required_error) /\
        (forall out,
           imds_GetRegion sdk (imds_NewFromConfig sdk cfg) = Ok out ->
           Validate_error sdk args = Some filter_values_error))).
Proof.
  intros Hempty. apply existsb_has_no_Values in Hempty.
  on_each_path args; unfold filters_verdict; rewrite ?Hempty;
    (split; [discriminate | split]).
  - intros _. split; reflexivity.
  - intros Hunset. now elim Hset.
  - intros Hset. now elim Hset.
  - intros _. split; [reflexivity |]. split.
    + intros _ _. reflexivity.
    + intros cfg Hok. congruence.
  - intros Hset. now elim Hset.
  - intros _. split; [reflexivity |]. split.
    + intros e' Hbad. congruence.
    + intros cfg' Hok. rewrite Hload in Hok. injection Hok as <-.
      split; [reflexivity |]. split.
      * exists region_required_error. split; reflexivity.
      * split; [reflexivity |]. intros out Hgot. congruence.
  - intros Hset. now elim Hset.
  - intros _. split; [reflexivity |]. split.
    + intros e' Hbad. congruence.
    + intros cfg' Hok. rewrite Hload in Hok. injection Hok as <-.
      split; [reflexivity |]. split.
      * exists filter_values_error. split; reflexivity.
      * split; [| reflexivity]. intros e' Hbad. congruence.
Qed.

(** C2, as amended.  With the region unset, when the ambient configuration
    loads and the region query fails, [Validate] returns the error that says
    a region is required, whatever error the query gave, and leaves the
    configuration as it was. *)
Theorem Validate_region_query_fails (args : EC2Arguments H)
    (cfg : Config) (e : error) :
  Region args = "" ->
  awsConfig_LoadDefaultConfig sdk = Ok cfg ->
  imds_GetRegion sdk (imds_NewFromConfig sdk cfg) = Err e ->
  Validate_error sdk args =
    Some (errors_New "EC2 SD configuration requires a region") /\
  Validate_args sdk args = args.
Proof.
  intros Hunset Hload Hget.
  unfold Validate_error, Validate_args.
  rewrite (Validate_GetRegion_fails sdk args cfg e Hunset Hload Hget).
  split; reflexivity.
Qed.

(** C4, as amended.  In a configuration that passed [Validate] every filter
    has at least one value; [Validate] left the filters as they were.
    Filter names are not examined. *)
Theorem Validate_passed_filters (args : EC2Arguments H) :
  Validate_error sdk args = None ->
  Filters (Validate_args sdk args) = Filters args /\
  Forall (fun f => Values f <> []) (Filters (Validate_args sdk args)).
Proof.
  on_each_path args; unfold filters_verdict; try discriminate;
    destruct (existsb has_no_Values (Filters args)) eqn:E;
    try discriminate; intros _; cbn [set_Region Filters];
    (split; [reflexivity | now apply existsb_has_no_Values_false]).
Qed.

(** C5.  With the region unset, when the probe succeeds and every filter
    has a value, [Validate] succeeds and the region the probe resolved is
    written back: the configuration afterwards is the one given, with its
    region replaced by the probe's answer.  In particular, when the probe
    answers "us-east-1" the region of the validated configuration is
    "us-east-1". *)
Theorem Validate_writes_back_region (args : EC2Arguments H)
    (cfg : Config) (out : imds.GetRegionOutput) :
  Region args = "" ->
  awsConfig_LoadDefaultConfig sdk = Ok cfg ->
  imds_GetRegion sdk (imds_NewFromConfig sdk cfg) = Ok out ->
  Forall (fun f => Values f <> []) (Filters args) ->
  Validate_error sdk args = None /\
  Region (Validate_args sdk args) = imds.Region out /\
  Validate_args sdk args = set_Region (imds.Region out) args /\
  (imds.Region out = "us-east-1" ->
   Region (Validate_args sdk args) = "us-east-1").
Proof.
  intros Hunset Hload Hget Hvalid.
  apply existsb_has_no_Values_false in Hvalid.
  unfold Validate_error, Validate_args.
  rewrite (Validate_GetRegion_succeeds sdk args cfg out Hunset Hload Hget).
  unfold filters_verdict. rewrite Hvalid. cbn [fst snd st_args].
  repeat split; try reflexivity.
  intros Hregion. cbn. exact Hregion.
Qed.

(** C6.  When the region is set, [Validate] makes no call to the SDK, and
    it succeeds exactly when every filter has at least one value. *)
Theorem Validate_region_set_no_probe (args : EC2Arguments H) :
  Region args <> "" ->
  Validate_calls sdk args = [] /\
  length (Validate_calls sdk args) = 0%nat /\
  (Validate_error sdk args = None <->
   Forall (fun f => (1 <= length (Values f))%nat) (Filters args)).
Proof.
  intros Hset.
  unfold Validate_error, Validate_calls.
  rewrite (Validate_region_set sdk args Hset). cbn [fst snd st_calls].
  repeat split; unfold filters_verdict.
  - destruct (existsb has_no_Values (Filters args)) eqn:E;
      try discriminate; intros _.
    apply existsb_has_no_Values_false in E.
    eapply Forall_impl; [| exact E].
    intros f Hf. destruct (Values f) eqn:Ev; [congruence | cbn; lia].
  - intros Hall.
    destruct (existsb has_no_Values (Filters args)) eqn:E; trivial.
    apply existsb_has_no_Values in E as [f [Hin Hnil]].
    rewrite Forall_forall in Hall. specialize (Hall f Hin).
    rewrite Hnil in Hall. cbn in Hall. lia.
Qed.

(** C9.  [Validate] changes no field but [Region]; when the region is set
    on entry the configuration is left as it was, on success and on
    failure. *)
Theorem Validate_frame (args : EC2Arguments H) :
  let args' := Validate_args sdk args in
  (Endpoint args' = Endpoint args /\
   AccessKey args' = AccessKey args /\
   SecretKey args' = SecretKey args /\
   Profile args' = Profile args /\
   RoleARN args' = RoleARN args /\
   RefreshInterval args' = RefreshInterval args /\
   Port args' = Port args /\
   Filters args' = Filters args /\
   HTTPClientConfig args' = HTTPClientConfig args) /\
  (Region args <> "" -> args' = args).
Proof.
  cbv zeta.
  on_each_path args;
    (split; [repeat split; reflexivity |]); intros Hne;
    try reflexivity; contradiction.
Qed.

End Validation.

(** ** Validate on the sample inputs *)

(** C1, refuted as stated.  With the region unset, a configuration whose
    only filter has no values is rejected only after both SDK calls of the
    probe were made. *)
Lemma Validate_probes_before_filters :
  let args := sample_args "" 80 [empty_filter] in
  (In empty_filter (Filters args) /\ Values empty_filter = []) /\
  Validate_error sdk_us_east_1 args = Some filter_values_error /\
  Validate_calls sdk_us_east_1 args =
    [call_LoadDefaultConfig; call_GetRegion] /\
  Validate_calls sdk_us_east_1 args <> [].
Proof.
  cbv zeta. split; [split; [left |]; reflexivity |].
  split; [reflexivity |]. split; [reflexivity | discriminate].
Qed.

Lemma Validate_rejects_empty_values_witness :
  let args := sample_args "eu-west-1" 80 [tag_filter; empty_filter] in
  (exists f, In f (Filters args) /\ Values f = []) /\
  Validate_error sdk_us_east_1 args <> None /\
  Validate_error sdk_us_east_1 args = Some filter_values_error /\
  Validate_calls sdk_us_east_1 args = [].
Proof.
  cbv zeta.
  assert (Hex : exists f,
             In f (Filters (sample_args "eu-west-1" 80
                              [tag_filter; empty_filter])) /\
             Values f = []).
  { exists empty_filter. split; [right; left |]; reflexivity. }
  split; [exact Hex |].
  destruct (Validate_rejects_empty_values sdk_us_east_1 _ Hex)
    as [Hfail [Hset _]].
  split; [exact Hfail |].
  apply Hset. discriminate.
Defined.

(** C2, refuted as stated.  With the region unset, when loading the ambient
    configuration fails, [Validate] returns the SDK's error itself; it is
    not an error built by [Validate] and does not speak of the region. *)
Lemma Validate_passes_on_load_error :
  let args := sample_args "" 80 [tag_filter] in
  Region args = "" /\
  awsConfig_LoadDefaultConfig sdk_no_credentials =
    Err (sdk_error "failed to load shared config file") /\
  Validate_error sdk_no_credentials args =
    Some (sdk_error "failed to load shared config file") /\
  Validate_error sdk_no_credentials args <> Some region_required_error /\
  is_errors_New (sdk_error "failed to load shared config file") = false.
Proof.
  cbv zeta. repeat split; try reflexivity. discriminate.
Qed.

Lemma Validate_region_query_fails_witness :
  let args := sample_args "" 80 [tag_filter] in
  (Region args = "" /\
   awsConfig_LoadDefaultConfig sdk_no_metadata = Ok tt /\
   imds_GetRegion sdk_no_metadata (imds_NewFromConfig sdk_no_metadata tt) =
     Err (sdk_error "context deadline exceeded")) /\
  Validate_error sdk_no_metadata args =
    Some (errors_New "EC2 SD configuration requires a region") /\
  Validate_args sdk_no_metadata args = args.
Proof.
  cbv zeta. split; [repeat split |].
  apply (Validate_region_query_fails sdk_no_metadata _ tt
           (sdk_error "context deadline exceeded"));
    reflexivity.
Defined.

(** C4, refuted as stated.  A configuration whose filter has the empty name
    passes [Validate] and still holds that filter afterwards. *)
Lemma Validate_accepts_empty_name :
  let args := sample_args "eu-west-1" 80 [unnamed_filter] in
  Validate_error sdk_us_east_1 args = None /\
  In unnamed_filter (Filters (Validate_args sdk_us_east_1 args)) /\
  Name unnamed_filter = "".
Proof.
  cbv zeta. split; [reflexivity |]. split; [left |]; reflexivity.
Qed.

Lemma Validate_passed_filters_witness :
  let args := sample_args "" 80 [tag_filter; unnamed_filter] in
  Validate_error sdk_us_east_1 args = None /\
  Filters (Validate_args sdk_us_east_1 args) = Filters args /\
  Forall (fun f => Values f <> [])
         (Filters (Validate_args sdk_us_east_1 args)).
Proof.
  cbv zeta. split; [reflexivity |].
  apply (Validate_passed_filters sdk_us_east_1). reflexivity.
Defined.

Lemma Validate_writes_back_region_witness :
  let args := sample_args "" 80 [tag_filter] in
  (Region args = "" /\
   awsConfig_LoadDefaultConfig sdk_us_east_1 = Ok tt /\
   imds_GetRegion sdk_us_east_1 (imds_NewFromConfig sdk_us_east_1 tt) =
     Ok (imds.mkGetRegionOutput "us-east-1") /\
   Forall (fun f => Values f <> []) (Filters args)) /\
  Validate_error sdk_us_east_1 args = None /\
  Region (Validate_args sdk_us_east_1 args) = "us-east-1".
Proof.
  cbv zeta.
  assert (Hvalid : Forall (fun f => Values f <> [])
                          (Filters (sample_args "" 80 [tag_filter]))).
  { repeat constructor. discriminate. }
  split; [repeat split; exact Hvalid |].
  destruct (Validate_writes_back_region sdk_us_east_1
              (sample_args "" 80 [tag_filter]) tt
              (imds.mkGetRegionOutput "us-east-1")
              eq_refl eq_refl eq_refl Hvalid)
    as [Hnil [Hregion _]].
  split; [exact Hnil | exact Hregion].
Defined.

Lemma Validate_region_set_no_probe_witness :
  let args := sample_args "eu-west-1" 80 [tag_filter] in
  Region args <> "" /\
  Validate_calls sdk_no_credentials args = [] /\
  length (Validate_calls sdk_no_credentials args) = 0%nat /\
  (Validate_error sdk_no_credentials args = None <->
   Forall (fun f => (1 <= length (Values f))%nat) (Filters args)).
Proof.
  cbv zeta.
  assert (Hset : Region (sample_args "eu-west-1" 80 [tag_filter]) <> "")
    by discriminate.
  split; [exact Hset |].
  exact (Validate_region_set_no_probe sdk_no_credentials _ Hset).
Defined.

Lemma Validate_frame_witness :
  let args := sample_args "eu-west-1" 80 [empty_filter] in
  Region args <> "" /\
  Validate_error sdk_us_east_1 args <> None /\
  Validate_args sdk_us_east_1 args = args.
Proof.
  cbv zeta.
  assert (Hset : Region (sample_args "eu-west-1" 80 [empty_filter]) <> "")
    by discriminate.
  split; [exact Hset |]. split; [discriminate |].
  exact (proj2 (Validate_frame sdk_us_east_1 _) Hset).
Defined.

(** C10.  [Validate] is not atomic on error: there is a configuration with
    the region unset, a probe that succeeds and a filter with no values,
    for which [Validate] returns an error and has nevertheless replaced the
    region by the probed one. *)
Theorem Validate_not_atomic_on_error :
  exists (sdk : SDK unit unit) (args : EC2Arguments unit)
         (out : imds.GetRegionOutput),
    Region args = "" /\
    awsConfig_LoadDefaultConfig sdk = Ok tt /\
    imds_GetRegion sdk (imds_NewFromConfig sdk tt) = Ok out /\
    (exists f, In f (Filters args) /\ Values f = []) /\
    Validate_error sdk args = Some filter_values_error /\
    Region (Validate_args sdk args) = imds.Region out /\
    Region (Validate_args sdk args) <> Region args.
Proof.
  exists sdk_us_east_1, (sample_args "" 80 [tag_filter; empty_filter]),
         (imds.mkGetRegionOutput "us-east-1").
  repeat split; try reflexivity.
  - exists empty_filter. split; [right; left |]; reflexivity.
  - discriminate.
Qed.

(** * Further properties of the same code *)

(** ** More on the filter test *)

Lemma filters_verdict_None (fs : list EC2Filter) :
  filters_verdict fs = None <-> Forall (fun f => Values f <> []) fs.
Proof.
  unfold filters_verdict. rewrite <- existsb_has_no_Values_false.
  destruct (existsb has_no_Values fs); split; congruence.
Qed.

Lemma filters_verdict_Some (fs : list EC2Filter) (e : error) :
  filters_verdict fs = Some e ->
  e = filter_values_error /\ exists f, In f fs /\ Values f = [].
Proof.
  unfold filters_verdict.
  destruct (existsb has_no_Values fs) eqn:E; [| discriminate].
  intros [= <-]. split; [reflexivity |].
  now apply existsb_has_no_Values.
Qed.

Lemma filters_verdict_Permutation (fs fs' : list EC2Filter) :
  Permutation fs fs' -> filters_verdict fs = filters_verdict fs'.
Proof.
  intros HP. unfold filters_verdict.
  replace (existsb has_no_Values fs') with (existsb has_no_Values fs);
    [reflexivity |].
  induction HP as [| f l l' _ IH | f g l | l l' l'' _ IH1 _ IH2];
    cbn [existsb].
  - reflexivity.
  - now rewrite IH.
  - destruct (has_no_Values f), (has_no_Values g); reflexivity.
  - congruence.
Qed.

Lemma map_Convert_filter_inj (fs gs : list EC2Filter) :
  map Convert_filter fs = map Convert_filter gs -> fs = gs.
Proof.
  revert gs.
  induction fs as [| f fs IH]; intros [| g gs]; cbn [map];
    try discriminate; trivial.
  intros [= Hn Hv Hrest].
  destruct f, g; cbn in Hn, Hv; subst.
  f_equal. now apply IH.
Qed.

(** ** Validate as a whole *)

Section ValidateWhole.

Context {H Config Client : Type}.
Variable sdk : SDK Config Client.

Ltac by_path args :=
  destruct (Validate_paths sdk args)
    as [[Hset Hrun]
       | [[Hunset [e0 [Hload Hrun]]]
       | [[Hunset [cfg0 [e0 [Hload [Hget Hrun]]]]]
       | [Hunset [cfg0 [out0 [Hload [Hget Hrun]]]]]]]];
  unfold Validate_error, Validate_args, Validate_calls;
  rewrite Hrun; cbn [fst snd st_args st_calls].

(** X1.  [Validate] returns [nil] exactly when a region is available (set
    in the configuration, or obtained because both steps of the probe
    succeed) and every filter has a value. *)
Theorem Validate_succeeds_iff (args : EC2Arguments H) :
  Validate_error sdk args = None <->
  (Region args <> "" \/
   exists cfg out,
     awsConfig_LoadDefaultConfig sdk = Ok cfg /\
     imds_GetRegion sdk (imds_NewFromConfig sdk cfg) = Ok out) /\
  Forall (fun f => Values f <> []) (Filters args).
Proof.
  by_path args.
  - rewrite filters_verdict_None. tauto.
  - split; [discriminate |].
    intros [[Hset | [cfg [out [Hok _]]]] _]; congruence.
  - split; [discriminate |].
    intros [[Hset | [cfg [out [Hok Hgot]]]] _]; [congruence |].
    rewrite Hload in Hok. injection Hok as <-. congruence.
  - rewrite filters_verdict_None.
    split; [| tauto]. intros Hall. split; [| exact Hall].
    right. exists cfg0, out0. now split.
Qed.

(** X2.  An error returned by [Validate] is one of three: the error of
    [LoadDefaultConfig] itself (region unset), the region-required error
    (region unset, configuration loaded, region query failed), or the
    empty-filter-values error (some filter has no values). *)
Theorem Validate_error_kinds (args : EC2Arguments H) (e : error) :
  Validate_error sdk args = Some e ->
  (Region args = "" /\ awsConfig_LoadDefaultConfig sdk = Err e) \/
  (Region args = "" /\ e = region_required_error /\
   exists cfg e',
     awsConfig_LoadDefaultConfig sdk = Ok cfg /\
     imds_GetRegion sdk (imds_NewFromConfig sdk cfg) = Err e') \/
  (e = filter_values_error /\
   exists f, In f (Filters args) /\ Values f = []).
Proof.
  by_path args.
  - intros Hv. right; right. now apply filters_verdict_Some.
  - intros [= <-]. left. now split.
  - intros [= <-]. right; left.
    repeat split; trivial. now exists cfg0, e0.
  - intros Hv. right; right. now apply filters_verdict_Some.
Qed.

(** X3.  The SDK calls made by one [Validate] are: none when the region is
    set; [LoadDefaultConfig] alone when the region is unset and loading
    fails; [LoadDefaultConfig] then [GetRegion], once each, when the region
    is unset and loading succeeds. *)
Theorem Validate_calls_shape (args : EC2Arguments H) :
  (Region args <> "" /\ Validate_calls sdk args = []) \/
  (Region args = "" /\
   (exists e, awsConfig_LoadDefaultConfig sdk = Err e) /\
   Validate_calls sdk args = [call_LoadDefaultConfig]) \/
  (Region args = "" /\
   (exists cfg, awsConfig_LoadDefaultConfig sdk = Ok cfg) /\
   Validate_calls sdk args = [call_LoadDefaultConfig; call_GetRegion]).
Proof.
  by_path args.
  - left. now split.
  - right; left. repeat split; trivial. now exists e0.
  - right; right. repeat split; trivial. now exists cfg0.
  - right; right. repeat split; trivial. now exists cfg0.
Qed.

(** X4.  After [Validate] the configuration is either what it was, or what
    it was with [Region] replaced by the answer of the region query; the
    second happens only when the region was unset and both steps of the
    probe succeeded. *)
Theorem Validate_args_cases (args : EC2Arguments H) :
  Validate_args sdk args = args \/
  (Region args = "" /\
   exists cfg out,
     awsConfig_LoadDefaultConfig sdk = Ok cfg /\
     imds_GetRegion sdk (imds_NewFromConfig sdk cfg) = Ok out /\
     Validate_args sdk args = set_Region (imds.Region out) args).
Proof.
  by_path args.
  - now left.
  - now left.
  - now left.
  - right. split; trivial. exists cfg0, out0. now repeat split.
Qed.

(** X6.  The outcome of [Validate] depends on the configuration only
    through [Region] and the filters taken as a multiset: two configurations
    with the same region and the same filters in any order, whatever their
    endpoint, credentials, profile, role, interval, port and HTTP block,
    get the same error, make the same SDK calls and end with the same
    region. *)
Theorem Validate_reads_Region_and_Filters (a b : EC2Arguments H) :
  Region a = Region b ->
  Permutation (Filters a) (Filters b) ->
  Validate_error sdk a = Validate_error sdk b /\
  Validate_calls sdk a = Validate_calls sdk b /\
  Region (Validate_args sdk a) = Region (Validate_args sdk b).
Proof.
  intros HR HP.
  apply filters_verdict_Permutation in HP.
  by_path a.
  - rewrite (Validate_region_set sdk b) by congruence.
    cbn [fst snd st_args st_calls]. rewrite HP. now repeat split.
  - rewrite (Validate_load_fails sdk b e0) by congruence.
    cbn [fst snd st_args st_calls]. repeat split; congruence.
  - rewrite (Validate_GetRegion_fails sdk b cfg0 e0) by congruence.
    cbn [fst snd st_args st_calls]. repeat split; congruence.
  - rewrite (Validate_GetRegion_succeeds sdk b cfg0 out0) by congruence.
    cbn [fst snd st_args st_calls]. rewrite HP. now repeat split.
Qed.

(** X7.  Once [Validate] has returned [nil] and the configuration holds a
    region, validating that configuration again, under any answers of the
    SDK, makes no SDK call, returns [nil] and changes nothing. *)
Theorem Validate_again {Config' Client' : Type}
    (sdk' : SDK Config' Client') (args : EC2Arguments H) :
  Validate_error sdk args = None ->
  Region (Validate_args sdk args) <> "" ->
  Validate sdk' (Validate_args sdk args) =
  (None, mkstate (Validate_args sdk args) []).
Proof.
  intros Hok Hregion.
  rewrite (Validate_region_set sdk' _ Hregion).
  f_equal. revert Hok. clear Hregion.
  by_path args; try discriminate; trivial.
Qed.

(** X8.  A configuration that passed [Validate] converts into a request
    whose filters are the configuration's filters, one for one, each with
    at least one value, and whose region is the validated region (the
    configured one when a region was set). *)
Theorem Validate_then_Convert {P : Type} (conv : H -> P)
    (args : EC2Arguments H) :
  Validate_error sdk args = None ->
  let req := Convert conv (Validate_args sdk args) in
  promaws.Filters req = map Convert_filter (Filters args) /\
  Forall (fun g => promaws.Values g <> []) (promaws.Filters req) /\
  promaws.Region req = Region (Validate_args sdk args) /\
  (Region args <> "" -> promaws.Region req = Region args).
Proof.
  intros Hok. cbv zeta.
  assert (HF : Filters (Validate_args sdk args) = Filters args).
  { clear Hok. by_path args; reflexivity. }
  assert (HR : Region args <> "" ->
               Region (Validate_args sdk args) = Region args).
  { clear Hok HF. by_path args; intros Hne; congruence. }
  assert (Hall : Forall (fun f => Values f <> []) (Filters args)).
  { apply filters_verdict_None. revert Hok. clear HF HR.
    by_path args; try discriminate; trivial. }
  rewrite Convert_Filters, HF.
  split; [reflexivity |]. split.
  - rewrite Forall_map. exact Hall.
  - unfold Convert. rewrite Convert_range_run. cbn.
    split; [reflexivity | exact HR].
Qed.

End ValidateWhole.

(** ** Convert, and SetToDefault followed by Validate *)

Section ConvertAndDefaults.

Context {H P Config Client : Type}.
Variable conv : H -> P.
Variable sdk : SDK Config Client.
Variable DefaultHTTPClientConfig : H.

(** X9.  [Convert] loses nothing: when the conversion of the HTTP client
    block is injective, two configurations that convert to the same request
    are the same configuration. *)
Theorem Convert_injective (a b : EC2Arguments H) :
  (forall x y : H, conv x = conv y -> x = y) ->
  Convert conv a = Convert conv b ->
  a = b.
Proof.
  intros Hinj. unfold Convert. rewrite !Convert_range_run. cbn.
  intros [= He Hr Hk Hs Hp Ha Hi Hport Hf Hh].
  apply map_Convert_filter_inj in Hf. apply Hinj in Hh.
  destruct a, b; cbn in *. now subst.
Qed.

(** X10.  A configuration fresh from [SetToDefault] has no region and no
    filters: validating it always starts the probe, succeeds exactly when
    both steps of the probe succeed, and keeps port 80, the 60 second
    refresh interval and the empty filter list. *)
Theorem SetToDefault_then_Validate (args : EC2Arguments H) :
  let a := SetToDefault DefaultHTTPClientConfig args in
  hd_error (Validate_calls sdk a) = Some call_LoadDefaultConfig /\
  (Validate_error sdk a = None <->
   exists cfg out,
     awsConfig_LoadDefaultConfig sdk = Ok cfg /\
     imds_GetRegion sdk (imds_NewFromConfig sdk cfg) = Ok out) /\
  Port (Validate_args sdk a) = 80 /\
  RefreshInterval (Validate_args sdk a) = 60 * time_Second /\
  Filters (Validate_args sdk a) = [].
Proof.
  cbv zeta.
  destruct (Validate_paths sdk (SetToDefault DefaultHTTPClientConfig args))
    as [[Hset _]
       | [[_ [e [Hload Hrun]]]
       | [[_ [cfg [e [Hload [Hget Hrun]]]]]
       | [_ [cfg [out [Hload [Hget Hrun]]]]]]]].
  - now elim Hset.
  - unfold Validate_error, Validate_args, Validate_calls. rewrite Hrun.
    cbn. repeat split; try discriminate.
    intros [cfg [out [Hok _]]]. congruence.
  - unfold Validate_error, Validate_args, Validate_calls. rewrite Hrun.
    cbn. repeat split; try discriminate.
    intros [cfg' [out [Hok Hgot]]].
    rewrite Hload in Hok. injection Hok as <-. congruence.
  - unfold Validate_error, Validate_args, Validate_calls. rewrite Hrun.
    cbn. repeat split; trivial.
    intros _. now exists cfg, out.
Qed.

End ConvertAndDefaults.

(** ** The further properties on the sample inputs *)

Lemma Validate_error_kinds_witness :
  let args := sample_args "" 80 [tag_filter] in
  Validate_error sdk_no_metadata args = Some region_required_error /\
  ((Region args = "" /\
    awsConfig_LoadDefaultConfig sdk_no_metadata =
      Err region_required_error) \/
   (Region args = "" /\ region_required_error = region_required_error /\
    exists cfg e',
      awsConfig_LoadDefaultConfig sdk_no_metadata = Ok cfg /\
      imds_GetRegion sdk_no_metadata
        (imds_NewFromConfig sdk_no_metadata cfg) = Err e') \/
   (region_required_error = filter_values_error /\
    exists f, In f (Filters args) /\ Values f = [])).
Proof.
  cbv zeta. split; [reflexivity |].
  apply (Validate_error_kinds sdk_no_metadata). reflexivity.
Defined.

Lemma Validate_reads_Region_and_Filters_witness :
  let a := sample_args "" 80 [tag_filter; empty_filter] in
  let b := mkEC2Arguments "" "" "" "" "" "" 0 0
                          [empty_filter; tag_filter] tt in
  (Region a = Region b /\ Permutation (Filters a) (Filters b)) /\
  Validate_error sdk_us_east_1 a = Validate_error sdk_us_east_1 b /\
  Validate_calls sdk_us_east_1 a = Validate_calls sdk_us_east_1 b /\
  Region (Validate_args sdk_us_east_1 a) =
    Region (Validate_args sdk_us_east_1 b).
Proof.
  cbv zeta.
  assert (HP : Permutation [tag_filter; empty_filter]
                           [empty_filter; tag_filter])
    by apply perm_swap.
  split; [split; [reflexivity | exact HP] |].
  apply (Validate_reads_Region_and_Filters sdk_us_east_1);
    [reflexivity | exact HP].
Defined.

Lemma Validate_again_witness :
  let args := sample_args "" 80 [tag_filter] in
  (Validate_error sdk_us_east_1 args = None /\
   Region (Validate_args sdk_us_east_1 args) <> "") /\
  Validate sdk_no_credentials (Validate_args sdk_us_east_1 args) =
  (None, mkstate (Validate_args sdk_us_east_1 args) []).
Proof.
  cbv zeta.
  assert (Hne : Region (Validate_args sdk_us_east_1
                          (sample_args "" 80 [tag_filter])) <> "")
    by discriminate.
  split; [split; [reflexivity | exact Hne] |].
  apply (Validate_again sdk_us_east_1 sdk_no_credentials);
    [reflexivity | exact Hne].
Defined.

Lemma Validate_then_Convert_witness :
  let args := sample_args "" 80 [tag_filter; unnamed_filter] in
  let req := Convert (fun h : unit => h)
                     (Validate_args sdk_us_east_1 args) in
  Validate_error sdk_us_east_1 args = None /\
  promaws.Filters req = map Convert_filter (Filters args) /\
  Forall (fun g => promaws.Values g <> []) (promaws.Filters req) /\
  promaws.Region req = "us-east-1".
Proof.
  cbv zeta. split; [reflexivity |].
  destruct (Validate_then_Convert sdk_us_east_1 (fun h : unit => h)
              (sample_args "" 80 [tag_filter; unnamed_filter])
              eq_refl)
    as [Hf [Hall [Hr _]]].
  split; [exact Hf |]. split; [exact Hall |].
  rewrite Hr. reflexivity.
Defined.

Lemma Convert_injective_witness :
  let a := sample_args "eu-west-1" 8080 [tag_filter] in
  let b := mkEC2Arguments "http://localhost:4566" "eu-west-1" "AKIA"
                          "s3cr3t" "dev" "arn:aws:iam::1:role/r"
                          10000000000 8080
                          [mkEC2Filter "tag:Name" ["web"; "db"]] tt in
  ((forall x y : unit, (fun h : unit => h) x = (fun h : unit => h) y ->
                       x = y) /\
   Convert (fun h : unit => h) a = Convert (fun h : unit => h) b) /\
  a = b.
Proof.
  cbv zeta.
  assert (Hinj : forall x y : unit,
             (fun h : unit => h) x = (fun h : unit => h) y -> x = y)
    by (intros x y Hxy; exact Hxy).
  split; [split; [exact Hinj | reflexivity] |].
  apply (Convert_injective (fun h : unit => h) _ _ Hinj). reflexivity.
Defined.
